(** * AERODAS set-up and coefficient blending

    A shallow embedding of
    [trunk/SUAVE/Methods/Aerodynamics/AERODAS/AERODAS_setup.py]:
    [setup_data], [lift_drag_total] and [drag_total].

    Modelling conventions.
    - The module binds [np] to [jax.numpy] (line 11), and the embedding
      follows that binding on one-dimensional arrays.  Element-wise
      operations broadcast a one-element array against any length and
      raise [TypeError] for any other length mismatch; a boolean mask must
      be as long as the array it indexes ([IndexError] otherwise); the
      arrays [np] builds are immutable, so an item assignment into one of
      them raises [TypeError].
    - Coefficients, angles and areas are exact rationals ([Qc]).  The
      statements below use of their arithmetic only [0 + x = x] and the
      order, which binary floating point shares; none rests on
      associativity or on a quotient.
    - The attribute bags of the framework ([Data]) are records for the
      attributes this module names, with a finite map for the others.
    - A Python call that mutates [state] is a function returning the
      outcome of the call together with the state it leaves behind. *)

From Stdlib Require Import QArith Qcanon.
From stdpp Require Import base numbers option list gmap strings.

Local Open Scope Qc_scope.

(** ** Exceptions and outcomes *)

(** [KeyError], [IndexError] and [TypeError] are Python's;
    [MissingAttribute] is whatever the framework's attribute bag raises
    for an attribute it does not hold ([AttributeError] on a plain
    object). *)
Inductive exn : Type :=
  | KeyError (key : string)
  | MissingAttribute (attr : string)
  | IndexError
  | TypeError.

Inductive result (A : Type) : Type :=
  | Ok (a : A)
  | Raise (e : exn).
Arguments Ok {A} a.
Arguments Raise {A} e.

#[global] Instance result_ret : MRet result := λ A a, Ok a.
#[global] Instance result_bind : MBind result := λ A B f r,
  match r with
  | Ok a => f a
  | Raise e => Raise e
  end.

#[global] Instance result_fmap : FMap result := λ A B f r,
  match r with
  | Ok a => Ok (f a)
  | Raise e => Raise e
  end.

(** ** Arrays *)

(** A total, such as [CL_total], starts as the Python float [0.] and becomes
    an array once an array has been added to it. *)
Inductive value : Type :=
  | Scalar (x : Qc)
  | Array (xs : list Qc).


Definition Qcleb (x y : Qc) : bool := Qle_bool x y.

Module np.

(** Element-wise binary operation on two arrays, with broadcasting; shapes
    that cannot be broadcast together are a [TypeError]. *)
Definition elementwise (f : Qc → Qc → Qc) (xs ys : list Qc) : result (list Qc) :=
  if decide (length xs = length ys) then Ok (zip_with f xs ys)
  else match xs, ys with
       | [x], _ => Ok (f x <$> ys)
       | _, [y] => Ok ((λ x, f x y) <$> xs)
       | _, _ => Raise TypeError
       end.

Definition maximum (x y : Qc) : Qc := if Qcleb x y then y else x.
Definition minimum (x y : Qc) : Qc := if Qcleb x y then x else y.

Definition fmax (xs ys : list Qc) : result (list Qc) := elementwise maximum xs ys.
Definition fmin (xs ys : list Qc) : result (list Qc) := elementwise minimum xs ys.

(** [xs <= a] for a scalar [a]: the boolean mask. *)
Definition less_equal (xs : list Qc) (a : Qc) : list bool :=
  (λ x, Qcleb x a) <$> xs.

(** The elements of [xs] selected by [mask], in order. *)
Fixpoint compress (mask : list bool) (xs : list Qc) : list Qc :=
  match mask, xs with
  | true :: mask', x :: xs' => x :: compress mask' xs'
  | false :: mask', _ :: xs' => compress mask' xs'
  | _, _ => []
  end.

(** [xs[mask]] *)
Definition getitem_mask (xs : list Qc) (mask : list bool) : result (list Qc) :=
  if decide (length mask = length xs) then Ok (compress mask xs)
  else Raise IndexError.

(** [xs[mask] = vs] on an array [xs] that [np] has built: such an array
    does not support item assignment, whatever the mask and the values. *)
Definition setitem_mask (xs : list Qc) (mask : list bool) (vs : list Qc)
  : result (list Qc) :=
  Raise TypeError.

(** [xs * a] and [xs / a] for a scalar [a]. *)
Definition mul_scalar (xs : list Qc) (a : Qc) : list Qc := (λ x, x * a) <$> xs.
Definition div_scalar (xs : list Qc) (a : Qc) : list Qc := (λ x, x / a) <$> xs.

(** [v + xs] for a running total [v] and an array [xs]. *)
Definition add (v : value) (xs : list Qc) : result value :=
  match v with
  | Scalar x => Ok (Array (Qcplus x <$> xs))
  | Array ys => Array <$> elementwise Qcplus ys xs
  end.

(** [v + a] for a scalar [a]. *)
Definition add_scalar (v : value) (a : Qc) : value :=
  match v with
  | Scalar x => Scalar (x + a)
  | Array xs => Array ((λ x, x + a) <$> xs)
  end.

End np.

(** ** The data the module reads and writes *)

(** [pre_stall_coefficients[tag]] and [post_stall_coefficients[tag]]. *)
Module Coefficients.
Record t : Type := mk {
  lift_coefficient : list Qc;
  drag_coefficient : list Qc
}.
End Coefficients.

(** [state.conditions.aerodynamics].  The two totals are absent until
    something stores them. *)
Record Aerodynamics : Type := mkAerodynamics {
  angle_of_attack : list Qc;
  pre_stall_coefficients : gmap string Coefficients.t;
  post_stall_coefficients : gmap string Coefficients.t;
  lift_coefficient : option value;
  drag_coefficient : option value;
  aerodynamics_other : gmap string value
}.

Record Conditions : Type := mkConditions {
  aerodynamics : Aerodynamics;
  conditions_other : gmap string value
}.

Record State : Type := mkState {
  conditions : Conditions;
  state_other : gmap string value
}.

Record Settings : Type := mkSettings {
  section_zero_lift_angle_of_attack : Qc;
  drag_coefficient_increment : Qc
}.

(** [wing.tag], [wing.areas.reference], [wing.vertical]. *)
Record Wing : Type := mkWing {
  tag : string;
  areas_reference : Qc;
  vertical : bool
}.

(** [geometry.wings] is iterated in order. *)
Record Geometry : Type := mkGeometry {
  reference_area : Qc;
  wings : list Wing
}.

Definition with_aerodynamics (state : State) (a : Aerodynamics) : State :=
  {| conditions := {| aerodynamics := a;
                      conditions_other := conditions_other (conditions state) |};
     state_other := state_other state |}.

(** [d[key]] on a [Data], a dictionary: a key it does not hold is a
    [KeyError]. *)
Definition getitem {V} (d : gmap string V) (key : string) : result V :=
  match d !! key with
  | Some v => Ok v
  | None => Raise (KeyError key)
  end.

(** Modelled from the spec: the framework's attribute bag [Data] is not
    among the sources.  [obj.attr] on it yields the attribute when one has
    been stored and fails when none has. *)
Definition getattr {V} (field : option V) (attr : string) : result V :=
  match field with
  | Some v => Ok v
  | None => Raise (MissingAttribute attr)
  end.

(** Assignments to the attributes of [state.conditions.aerodynamics]. *)
Definition set_pre_stall_coefficients (state : State)
    (d : gmap string Coefficients.t) : State :=
  let a := aerodynamics (conditions state) in
  with_aerodynamics state
    {| angle_of_attack := angle_of_attack a;
       pre_stall_coefficients := d;
       post_stall_coefficients := post_stall_coefficients a;
       lift_coefficient := lift_coefficient a;
       drag_coefficient := drag_coefficient a;
       aerodynamics_other := aerodynamics_other a |}.

Definition set_post_stall_coefficients (state : State)
    (d : gmap string Coefficients.t) : State :=
  let a := aerodynamics (conditions state) in
  with_aerodynamics state
    {| angle_of_attack := angle_of_attack a;
       pre_stall_coefficients := pre_stall_coefficients a;
       post_stall_coefficients := d;
       lift_coefficient := lift_coefficient a;
       drag_coefficient := drag_coefficient a;
       aerodynamics_other := aerodynamics_other a |}.

Definition set_lift_coefficient (state : State) (v : value) : State :=
  let a := aerodynamics (conditions state) in
  with_aerodynamics state
    {| angle_of_attack := angle_of_attack a;
       pre_stall_coefficients := pre_stall_coefficients a;
       post_stall_coefficients := post_stall_coefficients a;
       lift_coefficient := Some v;
       drag_coefficient := drag_coefficient a;
       aerodynamics_other := aerodynamics_other a |}.

Definition set_drag_coefficient (state : State) (v : value) : State :=
  let a := aerodynamics (conditions state) in
  with_aerodynamics state
    {| angle_of_attack := angle_of_attack a;
       pre_stall_coefficients := pre_stall_coefficients a;
       post_stall_coefficients := post_stall_coefficients a;
       lift_coefficient := lift_coefficient a;
       drag_coefficient := Some v;
       aerodynamics_other := aerodynamics_other a |}.

(** ** [setup_data] *)

Definition setup_data (state : State) (settings : Settings) (geometry : Geometry)
  : unit * State :=
  let state := set_pre_stall_coefficients state ∅ in
  let state := set_post_stall_coefficients state ∅ in
  (tt, state).

(** ** [lift_drag_total] *)

(** Equations 3a and 3b: the lift coefficient of one wing.  In the
    assignment of Equation 3b the right-hand side is evaluated first, then
    the mask of the target, then the item assignment into [CL]. *)
Definition wing_lift (CL1 CL2 alpha : list Qc) (A0 : Qc) : result (list Qc) :=
  CL ← np.fmax CL1 CL2;
  let mask := np.less_equal alpha A0 in
  CL1m ← np.getitem_mask CL1 mask;
  CL2m ← np.getitem_mask CL2 mask;
  low ← np.fmin CL1m CL2m;
  np.setitem_mask CL mask low.

(** Equation 3c: the drag coefficient of one wing. *)
Definition wing_drag (CD1 CD2 : list Qc) : result (list Qc) :=
  np.fmax CD1 CD2.

(** The first half of the loop body: the inputs of one wing are unpacked
    and blended into its lift and drag coefficients [CL] and [CD]. *)
Definition wing_coefficients (wing_aero : Aerodynamics) (alpha : list Qc)
    (A0 : Qc) (wing : Wing) : result (list Qc * list Qc) :=
  pre ← getitem (pre_stall_coefficients wing_aero) (tag wing);
  let CL1 := Coefficients.lift_coefficient pre in
  let CD1 := Coefficients.drag_coefficient pre in
  post ← getitem (post_stall_coefficients wing_aero) (tag wing);
  let CL2 := Coefficients.lift_coefficient post in
  let CD2 := Coefficients.drag_coefficient post in
  CL ← wing_lift CL1 CL2 alpha A0;
  CD ← wing_drag CD1 CD2;
  Ok (CL, CD).

(** One pass of the loop over [geometry.wings], on the running totals: the
    coefficients of the wing, then "Add to the total". *)
Definition wing_step (ref : Qc) (wing_aero : Aerodynamics) (alpha : list Qc)
    (A0 : Qc) (totals : value * value) (wing : Wing) : result (value * value) :=
  let '(CL_total, CD_total) := totals in
  let area := areas_reference wing in
  '(CL, CD) ← wing_coefficients wing_aero alpha A0 wing;
  CD_total ← np.add CD_total (np.div_scalar (np.mul_scalar CD area) ref);
  if negb (vertical wing) then
    CL_total ← np.add CL_total (np.div_scalar (np.mul_scalar CL area) ref);
    Ok (CL_total, CD_total)
  else
    Ok (CL_total, CD_total).

Fixpoint wing_loop (ref : Qc) (wing_aero : Aerodynamics) (alpha : list Qc)
    (A0 : Qc) (totals : value * value) (ws : list Wing) : result (value * value) :=
  match ws with
  | [] => Ok totals
  | wing :: ws' =>
      totals' ← wing_step ref wing_aero alpha A0 totals wing;
      wing_loop ref wing_aero alpha A0 totals' ws'
  end.

Definition lift_drag_total (state : State) (settings : Settings)
    (geometry : Geometry) : result (value * value) * State :=
  let CL_total := Scalar 0 in
  let CD_total := Scalar 0 in
  let ref := reference_area geometry in
  let wing_aero := aerodynamics (conditions state) in
  let alpha := angle_of_attack (aerodynamics (conditions state)) in
  let A0 := section_zero_lift_angle_of_attack settings in
  match wing_loop ref wing_aero alpha A0 (CL_total, CD_total) (wings geometry) with
  | Raise e => (Raise e, state)
  | Ok (CL_total, CD_total) =>
      let CD_total := np.add_scalar CD_total (drag_coefficient_increment settings) in
      let state := set_lift_coefficient state CL_total in
      let state := set_drag_coefficient state CD_total in
      (Ok (CL_total, CD_total), state)
  end.

(** ** [drag_total] *)

Definition drag_total (state : State) (settings : Settings) (geometry : Geometry)
  : result value * State :=
  (getattr (drag_coefficient (aerodynamics (conditions state))) "drag_coefficient",
   state).

(** ** The exception of a loop pass in closed form *)

(** The exception Equations 3a and 3b end in, from the lengths of the two
    lift arrays and of [alpha]: [TypeError] from [fmax] when the lift
    arrays cannot be broadcast together, [IndexError] from the mask when
    one of them is not as long as [alpha], [TypeError] from the item
    assignment otherwise. *)
Definition lift_exception (n1 n2 N : nat) : exn :=
  if decide (n1 = n2 ∨ n1 = 1%nat ∨ n2 = 1%nat) then
    if decide (n1 = N ∧ n2 = N) then TypeError else IndexError
  else TypeError.

(** The exception a loop pass on [wing] ends in: [KeyError] on its tag when
    a mapping lacks it, the exception of its lift arrays otherwise. *)
Definition wing_exception (wing_aero : Aerodynamics) (alpha : list Qc)
    (wing : Wing) : exn :=
  match pre_stall_coefficients wing_aero !! tag wing,
        post_stall_coefficients wing_aero !! tag wing with
  | Some pre, Some post =>
      lift_exception (length (Coefficients.lift_coefficient pre))
        (length (Coefficients.lift_coefficient post)) (length alpha)
  | _, _ => KeyError (tag wing)
  end.

(** ** Inputs outside the contract *)


(** ** Variations of the inputs *)

(** The state with the pre-stall and post-stall mappings exchanged. *)
Definition swap_stall (state : State) : State :=
  set_post_stall_coefficients
    (set_pre_stall_coefficients state
       (post_stall_coefficients (aerodynamics (conditions state))))
    (pre_stall_coefficients (aerodynamics (conditions state))).

(** The state with other angles of attack. *)
Definition set_angle_of_attack (state : State) (alpha : list Qc) : State :=
  let a := aerodynamics (conditions state) in
  with_aerodynamics state
    {| angle_of_attack := alpha;
       pre_stall_coefficients := pre_stall_coefficients a;
       post_stall_coefficients := post_stall_coefficients a;
       lift_coefficient := lift_coefficient a;
       drag_coefficient := drag_coefficient a;
       aerodynamics_other := aerodynamics_other a |}.

(** ** Concrete data for the examples

    Two horizontal wings of areas 10 and 5 on a reference area of 15, two
    angles of attack on either side of the zero-lift angle 0.05. *)

Definition dec (n : Z) (d : positive) : Qc := Q2Qc (n # d).

Definition aero_AB : Aerodynamics :=
  {| angle_of_attack := [dec 0 1; dec 2 10];
     pre_stall_coefficients :=
       {[ "A" := Coefficients.mk [dec 5 10; dec 9 10] [dec 2 100; dec 5 100];
          "B" := Coefficients.mk [dec 4 10; dec 8 10] [dec 1 100; dec 2 100] ]};
     post_stall_coefficients :=
       {[ "A" := Coefficients.mk [dec 3 10; dec 11 10] [dec 3 100; dec 4 100];
          "B" := Coefficients.mk [dec 6 10; dec 7 10] [dec 15 1000; dec 18 1000] ]};
     lift_coefficient := None;
     drag_coefficient := None;
     aerodynamics_other := ∅ |}.

Definition state_AB : State := mkState (mkConditions aero_AB ∅) ∅.
Definition settings_AB : Settings := mkSettings (dec 5 100) (dec 1 1000).
Definition wing_A : Wing := mkWing "A" (dec 10 1) false.
Definition wing_B : Wing := mkWing "B" (dec 5 1) false.
Definition geometry_AB : Geometry := mkGeometry (dec 15 1) [wing_A; wing_B].

(** A vertical tail in place of wing B; wing A alone, on a reference area
    equal to its own; a wing without curves, first in line. *)
Definition wing_V : Wing := mkWing "B" (dec 5 1) true.
Definition geometry_AV : Geometry := mkGeometry (dec 15 1) [wing_A; wing_V].
Definition geometry_A : Geometry := mkGeometry (dec 10 1) [wing_A].
Definition wing_C : Wing := mkWing "C" (dec 5 1) false.
Definition geometry_CA : Geometry := mkGeometry (dec 15 1) [wing_C; wing_A].

(** No wing at all, on a positive and on a negative reference area. *)
Definition geometry_none : Geometry := mkGeometry (dec 15 1) [].


Definition settings_L : Settings := mkSettings (dec 0 1) (dec 0 1).
Definition wing_L : Wing := mkWing "L" (dec 1 1) false.
Definition geometry_L : Geometry := mkGeometry (dec 1 1) [wing_L].

(** Equality of the modelled data is decidable, so that closed equations
    are settled by evaluation. *)
#[global] Instance exn_eq_dec : EqDecision exn.
Proof. solve_decision. Defined.
#[global] Instance result_eq_dec {A} `{EqDecision A} : EqDecision (result A).
Proof. solve_decision. Defined.
#[global] Instance value_eq_dec : EqDecision value.
Proof. solve_decision. Defined.
#[global] Instance Coefficients_eq_dec : EqDecision Coefficients.t.
Proof. solve_decision. Defined.
#[global] Instance Aerodynamics_eq_dec : EqDecision Aerodynamics.
Proof. solve_decision. Defined.
#[global] Instance Conditions_eq_dec : EqDecision Conditions.
Proof. solve_decision. Defined.
#[global] Instance State_eq_dec : EqDecision State.
Proof. solve_decision. Defined.

Ltac by_evaluation :=
  apply (bool_decide_unpack _); vm_compute; exact I.

(** * Properties *)

(** ** Array operations *)

Lemma elementwise_outcome (f : Qc → Qc → Qc) (xs ys : list Qc) :
  if decide (length xs = length ys ∨ length xs = 1%nat ∨ length ys = 1%nat)
  then ∃ zs, np.elementwise f xs ys = Ok zs
  else np.elementwise f xs ys = Raise TypeError.
Proof.
  unfold np.elementwise. case_decide as Hb.
  - destruct (decide (length xs = length ys)); [eexists; reflexivity|].
    destruct xs as [|x0 [|x1 xs]], ys as [|y0 [|y1 ys]];
      try (eexists; reflexivity);
      simpl in *; destruct Hb as [?|[?|?]]; lia.
  - rewrite decide_False by tauto.
    destruct xs as [|x0 [|x1 xs]], ys as [|y0 [|y1 ys]]; try done;
      exfalso; apply Hb; simpl; auto.
Qed.

Lemma length_less_equal (xs : list Qc) (a : Qc) :
  length (np.less_equal xs a) = length xs.
Proof. unfold np.less_equal. apply length_fmap. Qed.

Lemma length_compress (mask : list bool) (xs ys : list Qc) :
  length mask = length xs → length mask = length ys →
  length (np.compress mask xs) = length (np.compress mask ys).
Proof.
  revert xs ys.
  induction mask as [|b mask IH]; intros [|x xs] [|y ys] E1 E2; try done.
  destruct b; simpl; [f_equal|]; apply IH; by simplify_eq/=.
Qed.

(** ** One pass of the loop *)

(** Equations 3a and 3b never deliver a lift coefficient: whatever the
    arrays, the computation ends in the exception that [lift_exception]
    tells from their lengths. *)
Lemma wing_lift_raises (CL1 CL2 alpha : list Qc) (A0 : Qc) :
  wing_lift CL1 CL2 alpha A0
  = Raise (lift_exception (length CL1) (length CL2) (length alpha)).
Proof.
  unfold wing_lift, lift_exception, np.fmax, np.fmin.
  pose proof (elementwise_outcome np.maximum CL1 CL2) as Hmax. revert Hmax.
  destruct (decide (length CL1 = length CL2 ∨ length CL1 = 1%nat
                    ∨ length CL2 = 1%nat)) as [Hb|Hb]; intros Hmax.
  - destruct Hmax as [CL HCL]. rewrite HCL. cbn [mbind result_bind].
    unfold np.getitem_mask. rewrite !length_less_equal.
    destruct (decide (length alpha = length CL1)) as [E1|E1].
    + destruct (decide (length alpha = length CL2)) as [E2|E2].
      * rewrite decide_True by (split; congruence). cbn [mbind result_bind].
        pose proof (elementwise_outcome np.minimum
                      (np.compress (np.less_equal alpha A0) CL1)
                      (np.compress (np.less_equal alpha A0) CL2)) as Hmin.
        rewrite decide_True in Hmin.
        -- destruct Hmin as [low Hlow]. by rewrite Hlow.
        -- left. apply length_compress; by rewrite length_less_equal.
      * cbn [mbind result_bind]. rewrite decide_False by (intros [_ ?]; congruence). done.
    + cbn [mbind result_bind]. rewrite decide_False by (intros [? _]; congruence). done.
  - by rewrite Hmax.
Qed.

Lemma wing_coefficients_raises wing_aero alpha A0 wing :
  wing_coefficients wing_aero alpha A0 wing
  = Raise (wing_exception wing_aero alpha wing).
Proof.
  unfold wing_coefficients, wing_exception, getitem.
  destruct (pre_stall_coefficients wing_aero !! tag wing) as [pre|]; [|done].
  destruct (post_stall_coefficients wing_aero !! tag wing) as [post|]; [|done].
  cbn [mbind result_bind]. by rewrite wing_lift_raises.
Qed.

Lemma wing_step_raises ref wing_aero alpha A0 totals wing :
  wing_step ref wing_aero alpha A0 totals wing
  = Raise (wing_exception wing_aero alpha wing).
Proof.
  destruct totals as [CLt CDt]. unfold wing_step.
  by rewrite wing_coefficients_raises.
Qed.

Lemma wing_loop_cons ref wing_aero alpha A0 totals wing ws :
  wing_loop ref wing_aero alpha A0 totals (wing :: ws)
  = Raise (wing_exception wing_aero alpha wing).
Proof. cbn [wing_loop]. by rewrite wing_step_raises. Qed.

(** With at least one wing the call ends in the exception of the first
    wing, before anything is stored. *)
Lemma lift_drag_total_cons state settings geometry wing ws :
  wings geometry = wing :: ws →
  lift_drag_total state settings geometry
  = (Raise (wing_exception (aerodynamics (conditions state))
              (angle_of_attack (aerodynamics (conditions state))) wing),
     state).
Proof.
  intros Hws. unfold lift_drag_total. by rewrite Hws, wing_loop_cons.
Qed.

Lemma lift_drag_total_nil state settings geometry :
  wings geometry = [] →
  lift_drag_total state settings geometry
  = (Ok (Scalar 0, Scalar (drag_coefficient_increment settings)),
     set_drag_coefficient (set_lift_coefficient state (Scalar 0))
       (Scalar (drag_coefficient_increment settings))).
Proof.
  intros Hws. unfold lift_drag_total. rewrite Hws. cbn [wing_loop].
  cbn [np.add_scalar]. by rewrite Qcplus_0_l.
Qed.

Lemma wing_exception_kinds wing_aero alpha wing :
  wing_exception wing_aero alpha wing = KeyError (tag wing) ∨
  wing_exception wing_aero alpha wing = IndexError ∨
  wing_exception wing_aero alpha wing = TypeError.
Proof.
  unfold wing_exception, lift_exception.
  destruct (pre_stall_coefficients wing_aero !! tag wing); [|by left].
  destruct (post_stall_coefficients wing_aero !! tag wing); [|by left].
  right. repeat case_decide; auto.
Qed.

Lemma wing_exception_contract wing_aero alpha wing pre post :
  pre_stall_coefficients wing_aero !! tag wing = Some pre →
  post_stall_coefficients wing_aero !! tag wing = Some post →
  length (Coefficients.lift_coefficient pre) = length alpha →
  length (Coefficients.lift_coefficient post) = length alpha →
  wing_exception wing_aero alpha wing = TypeError.
Proof.
  intros Hpre Hpost E1 E2. unfold wing_exception, lift_exception.
  rewrite Hpre, Hpost. repeat case_decide; try done. exfalso. tauto.
Qed.

(** ** The blended coefficients of one wing *)

(** C1. A wing inside the input contract, its tag in both mappings and its
    lift arrays as long as [alpha]: the loop pass builds the element-wise
    maximum and the values for the masked override, and then raises
    [TypeError] at the item assignment of Equation 3b.  No lift
    coefficient is produced and nothing is added to the totals. *)
Theorem lift_assignment_raises ref wing_aero alpha A0 totals wing pre post :
  pre_stall_coefficients wing_aero !! tag wing = Some pre →
  post_stall_coefficients wing_aero !! tag wing = Some post →
  length (Coefficients.lift_coefficient pre) = length alpha →
  length (Coefficients.lift_coefficient post) = length alpha →
  wing_lift (Coefficients.lift_coefficient pre)
    (Coefficients.lift_coefficient post) alpha A0 = Raise TypeError ∧
  wing_coefficients wing_aero alpha A0 wing = Raise TypeError ∧
  wing_step ref wing_aero alpha A0 totals wing = Raise TypeError.
Proof.
  intros Hpre Hpost E1 E2.
  rewrite wing_lift_raises, wing_coefficients_raises, wing_step_raises.
  rewrite (wing_exception_contract _ _ _ _ _ Hpre Hpost E1 E2).
  unfold lift_exception. rewrite E1, E2.
  rewrite decide_True by (by left). by rewrite decide_True.
Qed.

Lemma lift_assignment_raises_witness :
  wing_lift [dec 5 10; dec 9 10] [dec 3 10; dec 11 10]
    (angle_of_attack aero_AB) (dec 5 100) = Raise TypeError ∧
  wing_coefficients aero_AB (angle_of_attack aero_AB) (dec 5 100) wing_A
    = Raise TypeError ∧
  wing_step (dec 15 1) aero_AB (angle_of_attack aero_AB) (dec 5 100)
    (Scalar 0, Scalar 0) wing_A = Raise TypeError.
Proof.
  exact (lift_assignment_raises (dec 15 1) aero_AB (angle_of_attack aero_AB)
           (dec 5 100) (Scalar 0, Scalar 0) wing_A
           (Coefficients.mk [dec 5 10; dec 9 10] [dec 2 100; dec 5 100])
           (Coefficients.mk [dec 3 10; dec 11 10] [dec 3 100; dec 4 100])
           eq_refl eq_refl eq_refl eq_refl).
Defined.

(** C2. For a wing inside the input contract Equation 3c on its own is the
    element-wise maximum of the two drag arrays, but the loop pass never
    reaches it: the pass raises [TypeError] in Equation 3b, so no drag
    coefficient is produced and nothing is added to [CD_total]. *)
Theorem wing_drag_not_reached ref wing_aero alpha A0 totals wing pre post :
  pre_stall_coefficients wing_aero !! tag wing = Some pre →
  post_stall_coefficients wing_aero !! tag wing = Some post →
  length (Coefficients.lift_coefficient pre) = length alpha →
  length (Coefficients.lift_coefficient post) = length alpha →
  length (Coefficients.drag_coefficient pre)
    = length (Coefficients.drag_coefficient post) →
  wing_drag (Coefficients.drag_coefficient pre)
    (Coefficients.drag_coefficient post)
  = Ok (zip_with np.maximum (Coefficients.drag_coefficient pre)
          (Coefficients.drag_coefficient post)) ∧
  wing_coefficients wing_aero alpha A0 wing = Raise TypeError ∧
  wing_step ref wing_aero alpha A0 totals wing = Raise TypeError.
Proof.
  intros Hpre Hpost E1 E2 ED. split.
  - unfold wing_drag, np.fmax, np.elementwise. by rewrite decide_True.
  - rewrite wing_coefficients_raises, wing_step_raises.
    by rewrite (wing_exception_contract _ _ _ _ _ Hpre Hpost E1 E2).
Qed.

Lemma wing_drag_not_reached_witness :
  wing_drag [dec 2 100; dec 5 100] [dec 3 100; dec 4 100]
  = Ok (zip_with np.maximum [dec 2 100; dec 5 100] [dec 3 100; dec 4 100]) ∧
  wing_coefficients aero_AB (angle_of_attack aero_AB) (dec 5 100) wing_A
    = Raise TypeError ∧
  wing_step (dec 15 1) aero_AB (angle_of_attack aero_AB) (dec 5 100)
    (Scalar 0, Scalar 0) wing_A = Raise TypeError.
Proof.
  exact (wing_drag_not_reached (dec 15 1) aero_AB (angle_of_attack aero_AB)
           (dec 5 100) (Scalar 0, Scalar 0) wing_A
           (Coefficients.mk [dec 5 10; dec 9 10] [dec 2 100; dec 5 100])
           (Coefficients.mk [dec 3 10; dec 11 10] [dec 3 100; dec 4 100])
           eq_refl eq_refl eq_refl eq_refl eq_refl).
Defined.

(** ** Calls with wings *)

(** C3. With a vertical wing among [geometry.wings] the call raises the
    exception of the first wing and leaves the state as it was: it returns
    no [CL_total] to compare between runs and no [CD_total] to hold the
    drag of the vertical wing. *)
Theorem vertical_wing_call_raises state settings geometry ws1 w ws2 :
  wings geometry = ws1 ++ w :: ws2 →
  vertical w = true →
  ∃ first rest,
    wings geometry = first :: rest ∧
    lift_drag_total state settings geometry
    = (Raise (wing_exception (aerodynamics (conditions state))
                (angle_of_attack (aerodynamics (conditions state))) first),
       state).
Proof.
  intros Hws _. destruct ws1 as [|w1 ws1]; simpl in Hws.
  - exists w, ws2. split; [done|]. by apply lift_drag_total_cons with ws2.
  - exists w1, (ws1 ++ w :: ws2). split; [done|].
    by apply lift_drag_total_cons with (ws1 ++ w :: ws2).
Qed.

Lemma vertical_wing_call_raises_witness :
  ∃ first rest,
    [wing_A; wing_V] = first :: rest ∧
    lift_drag_total state_AB settings_AB geometry_AV
    = (Raise (wing_exception aero_AB (angle_of_attack aero_AB) first), state_AB).
Proof.
  exact (vertical_wing_call_raises state_AB settings_AB geometry_AV
           [wing_A] wing_V [] eq_refl eq_refl).
Defined.

(** The two-wing scenario of the specification and its variant with a
    vertical tail both end in the [TypeError] of wing A. *)
Example lift_drag_total_AB :
  lift_drag_total state_AB settings_AB geometry_AB = (Raise TypeError, state_AB) ∧
  lift_drag_total state_AB settings_AB geometry_AV = (Raise TypeError, state_AB).
Proof. split; by_evaluation. Qed.

(** C6. One horizontal wing whose area is the reference area, inside the
    input contract: the call raises [TypeError] and leaves the state as it
    was, where the wing's own coefficients were to be returned. *)
Theorem single_wing_raises state settings geometry wing pre post :
  wings geometry = [wing] →
  vertical wing = false →
  areas_reference wing = reference_area geometry →
  pre_stall_coefficients (aerodynamics (conditions state)) !! tag wing = Some pre →
  post_stall_coefficients (aerodynamics (conditions state)) !! tag wing = Some post →
  length (Coefficients.lift_coefficient pre)
    = length (angle_of_attack (aerodynamics (conditions state))) →
  length (Coefficients.lift_coefficient post)
    = length (angle_of_attack (aerodynamics (conditions state))) →
  lift_drag_total state settings geometry = (Raise TypeError, state).
Proof.
  intros Hws _ _ Hpre Hpost E1 E2.
  rewrite (lift_drag_total_cons _ _ _ _ _ Hws).
  by rewrite (wing_exception_contract _ _ _ _ _ Hpre Hpost E1 E2).
Qed.

Lemma single_wing_raises_witness :
  lift_drag_total state_AB settings_AB geometry_A = (Raise TypeError, state_AB).
Proof.
  exact (single_wing_raises state_AB settings_AB geometry_A wing_A
           (Coefficients.mk [dec 5 10; dec 9 10] [dec 2 100; dec 5 100])
           (Coefficients.mk [dec 3 10; dec 11 10] [dec 3 100; dec 4 100])
           eq_refl eq_refl eq_refl eq_refl eq_refl eq_refl eq_refl).
Defined.

(** ** The state before and after a call *)

(** C10. [setup_data] returns nothing and leaves a state whose
    [pre_stall_coefficients] and [post_stall_coefficients] are empty
    containers, whatever they held before; every other attribute of the
    state is as it was. *)
Theorem setup_data_frame state settings geometry :
  let after := (setup_data state settings geometry).2 in
  (setup_data state settings geometry).1 = tt ∧
  pre_stall_coefficients (aerodynamics (conditions after)) = ∅ ∧
  post_stall_coefficients (aerodynamics (conditions after)) = ∅ ∧
  (∀ key, getitem (pre_stall_coefficients (aerodynamics (conditions after))) key
          = Raise (KeyError key)) ∧
  (∀ key, getitem (post_stall_coefficients (aerodynamics (conditions after))) key
          = Raise (KeyError key)) ∧
  angle_of_attack (aerodynamics (conditions after))
    = angle_of_attack (aerodynamics (conditions state)) ∧
  lift_coefficient (aerodynamics (conditions after))
    = lift_coefficient (aerodynamics (conditions state)) ∧
  drag_coefficient (aerodynamics (conditions after))
    = drag_coefficient (aerodynamics (conditions state)) ∧
  aerodynamics_other (aerodynamics (conditions after))
    = aerodynamics_other (aerodynamics (conditions state)) ∧
  conditions_other (conditions after) = conditions_other (conditions state) ∧
  state_other after = state_other state.
Proof.
  simpl. repeat split; intros key; unfold getitem; by rewrite lookup_empty.
Qed.

(** C9. With no wing the loop body never runs: the call returns the
    scalars [0.] and [drag_coefficient_increment], not arrays. *)
Theorem lift_drag_total_no_wings state settings ref :
  (lift_drag_total state settings {| reference_area := ref; wings := [] |}).1
  = Ok (Scalar 0, Scalar (drag_coefficient_increment settings)).
Proof. unfold lift_drag_total. simpl. by rewrite Qcplus_0_l. Qed.

(** C7, as the code has it. A call that returns has stored the two totals
    it returns in [lift_coefficient] and [drag_coefficient] of
    [state.conditions.aerodynamics] and has changed nothing else; a call
    that raises leaves the state as it was. *)
Theorem lift_drag_total_frame state settings geometry :
  let after := (lift_drag_total state settings geometry).2 in
  match (lift_drag_total state settings geometry).1 with
  | Ok (CL_total, CD_total) =>
      lift_coefficient (aerodynamics (conditions after)) = Some CL_total ∧
      drag_coefficient (aerodynamics (conditions after)) = Some CD_total ∧
      angle_of_attack (aerodynamics (conditions after))
        = angle_of_attack (aerodynamics (conditions state)) ∧
      pre_stall_coefficients (aerodynamics (conditions after))
        = pre_stall_coefficients (aerodynamics (conditions state)) ∧
      post_stall_coefficients (aerodynamics (conditions after))
        = post_stall_coefficients (aerodynamics (conditions state)) ∧
      aerodynamics_other (aerodynamics (conditions after))
        = aerodynamics_other (aerodynamics (conditions state)) ∧
      conditions_other (conditions after) = conditions_other (conditions state) ∧
      state_other after = state_other state
  | Raise _ => after = state
  end.
Proof.
  unfold lift_drag_total.
  destruct (wing_loop _ _ _ _ _ _) as [[CL_total CD_total]|e]; simpl; done.
Qed.

(** C7, as stated, fails: before the call on no wing the state holds no
    totals, after it the state holds both. *)
Lemma lift_drag_total_modifies_state :
  lift_coefficient (aerodynamics (conditions state_AB)) = None ∧
  drag_coefficient (aerodynamics (conditions state_AB)) = None ∧
  (lift_drag_total state_AB settings_AB geometry_none).2 ≠ state_AB ∧
  lift_coefficient (aerodynamics (conditions
      (lift_drag_total state_AB settings_AB geometry_none).2))
    = Some (Scalar 0) ∧
  drag_coefficient (aerodynamics (conditions
      (lift_drag_total state_AB settings_AB geometry_none).2))
    = Some (Scalar (dec 1 1000)).
Proof. repeat split; by_evaluation. Qed.

(** C8, as the code has it. [drag_total] hands out whatever drag
    coefficient the state holds and leaves the state as it was.  It does
    not know for which evaluation point the coefficient was stored: after
    [setup_data], and after the angles of attack have changed, it has the
    outcome it had before. *)
Theorem drag_total_stored state settings geometry :
  (∀ CD, drag_coefficient (aerodynamics (conditions state)) = Some CD →
         drag_total state settings geometry = (Ok CD, state)) ∧
  (∀ settings0 geometry0,
     (drag_total (setup_data state settings0 geometry0).2 settings geometry).1
     = (drag_total state settings geometry).1) ∧
  (∀ alpha,
     (drag_total (set_angle_of_attack state alpha) settings geometry).1
     = (drag_total state settings geometry).1) ∧
  (drag_total state settings geometry).2 = state.
Proof.
  unfold drag_total. split; [|done].
  intros CD H. by rewrite H.
Qed.

Lemma drag_total_stored_witness :
  let stored := (lift_drag_total state_AB settings_AB geometry_none).2 in
  drag_total stored settings_AB geometry_AB = (Ok (Scalar (dec 1 1000)), stored).
Proof.
  apply (drag_total_stored
           (lift_drag_total state_AB settings_AB geometry_none).2
           settings_AB geometry_AB).
  by_evaluation.
Defined.

(** C8, as stated, fails.  A drag coefficient is stored by a call on no
    wing; then the curves are reset and the angles of attack replaced.
    Nothing has been computed for these angles, and [drag_total] returns
    the coefficient stored before. *)
Lemma drag_total_returns_stale :
  let stored := (lift_drag_total state_AB settings_AB geometry_none).2 in
  let later :=
    set_angle_of_attack (setup_data stored settings_AB geometry_AB).2
      [dec 1 1] in
  angle_of_attack (aerodynamics (conditions later))
    ≠ angle_of_attack (aerodynamics (conditions stored)) ∧
  drag_total later settings_AB geometry_AB = (Ok (Scalar (dec 1 1000)), later).
Proof. split; by_evaluation. Qed.

(** ** The drag increment *)



(** The shift at the data: the drag of a call on no wing goes from 0.001
    to 0.003, the lift stays the scalar 0. *)
Example drag_increment_shift_none :
  (lift_drag_total state_AB settings_AB geometry_none).1
    = Ok (Scalar 0, Scalar (dec 1 1000)) ∧
  (lift_drag_total state_AB (mkSettings (dec 5 100) (dec 3 1000))
     geometry_none).1
    = Ok (Scalar 0, Scalar (dec 3 1000)).
Proof. split; by_evaluation. Qed.

(** ** Failures *)






(** * Further properties of the module *)

(** ** What a call reads, and calls in sequence *)

Lemma wing_exception_ext a a' alpha wing :
  pre_stall_coefficients a' = pre_stall_coefficients a →
  post_stall_coefficients a' = post_stall_coefficients a →
  wing_exception a' alpha wing = wing_exception a alpha wing.
Proof. intros Hpre Hpost. unfold wing_exception. by rewrite Hpre, Hpost. Qed.

(** X1. The outcome of [lift_drag_total] depends on the state only through
    the angles of attack and the two coefficient mappings: totals stored
    earlier and every other attribute are never read. *)
Theorem lift_drag_total_reads state state' settings geometry :
  angle_of_attack (aerodynamics (conditions state'))
    = angle_of_attack (aerodynamics (conditions state)) →
  pre_stall_coefficients (aerodynamics (conditions state'))
    = pre_stall_coefficients (aerodynamics (conditions state)) →
  post_stall_coefficients (aerodynamics (conditions state'))
    = post_stall_coefficients (aerodynamics (conditions state)) →
  (lift_drag_total state' settings geometry).1
  = (lift_drag_total state settings geometry).1.
Proof.
  intros Halpha Hpre Hpost. unfold lift_drag_total.
  destruct (wings geometry) as [|w ws]; [done|].
  by rewrite !wing_loop_cons, Halpha, (wing_exception_ext _ _ _ _ Hpre Hpost).
Qed.

(** X2. A call that returns can be repeated: on the state it leaves, the
    same call returns the same totals and leaves that state as it is. *)
Theorem lift_drag_total_idempotent state settings geometry totals :
  (lift_drag_total state settings geometry).1 = Ok totals →
  lift_drag_total (lift_drag_total state settings geometry).2 settings geometry
  = (Ok totals, (lift_drag_total state settings geometry).2).
Proof.
  destruct (wings geometry) as [|w ws] eqn:Hws.
  - rewrite (lift_drag_total_nil _ _ _ Hws). cbn [fst snd]. intros [= <-].
    by rewrite (lift_drag_total_nil _ _ _ Hws).
  - by rewrite (lift_drag_total_cons _ _ _ _ _ Hws).
Qed.

(** X3. The total that [lift_drag_total] returns as drag is the one that
    [drag_total] then reads back from the state, whatever settings and
    geometry [drag_total] is given. *)
Theorem lift_drag_total_then_drag_total state settings geometry CL_total CD_total
    settings' geometry' :
  (lift_drag_total state settings geometry).1 = Ok (CL_total, CD_total) →
  drag_total (lift_drag_total state settings geometry).2 settings' geometry'
  = (Ok CD_total, (lift_drag_total state settings geometry).2).
Proof.
  unfold lift_drag_total.
  destruct (wing_loop _ _ _ _ _ _) as [[CL CD]|]; [|done].
  cbn [fst snd]. by intros [= <- <-].
Qed.

(** X4. Right after [setup_data] the mappings are empty, so a call of
    [lift_drag_total] on at least one wing raises [KeyError] on the tag of
    the first wing and stores nothing. *)
Theorem setup_data_then_lift_drag_total state settings0 geometry0 settings
    geometry w ws :
  wings geometry = w :: ws →
  lift_drag_total (setup_data state settings0 geometry0).2 settings geometry
  = (Raise (KeyError (tag w)), (setup_data state settings0 geometry0).2).
Proof.
  intros Hws. by rewrite (lift_drag_total_cons _ _ _ _ _ Hws).
Qed.

(** X5. The only exceptions [lift_drag_total] raises are [KeyError] on the
    tag of the first wing, [IndexError] and [TypeError]. *)
Theorem lift_drag_total_exceptions state settings geometry e :
  (lift_drag_total state settings geometry).1 = Raise e →
  (∃ w ws, wings geometry = w :: ws ∧ e = KeyError (tag w)) ∨
  e = IndexError ∨ e = TypeError.
Proof.
  destruct (wings geometry) as [|w ws] eqn:Hws.
  - by rewrite (lift_drag_total_nil _ _ _ Hws).
  - rewrite (lift_drag_total_cons _ _ _ _ _ Hws). cbn [fst]. intros [= <-].
    destruct (wing_exception_kinds (aerodynamics (conditions state))
                (angle_of_attack (aerodynamics (conditions state))) w)
      as [H|H]; [|by right].
    left. by exists w, ws.
Qed.

(** X16. A call returns exactly when the geometry has no wing: whatever
    the first wing and its curves are, its loop pass raises before anything
    is added to the totals. *)
Theorem lift_drag_total_returns_iff state settings geometry :
  (∃ totals, (lift_drag_total state settings geometry).1 = Ok totals)
  ↔ wings geometry = [].
Proof.
  split.
  - intros [totals H]. destruct (wings geometry) as [|w ws] eqn:Hws; [done|].
    by rewrite (lift_drag_total_cons _ _ _ _ _ Hws) in H.
  - intros Hws. eexists. by rewrite (lift_drag_total_nil _ _ _ Hws).
Qed.

(** ** The two stall regimes are interchangeable *)

Lemma lift_exception_comm (n1 n2 N : nat) :
  lift_exception n2 n1 N = lift_exception n1 n2 N.
Proof. unfold lift_exception. repeat case_decide; try done; exfalso; lia. Qed.

(** X11. The blend does not know which curve is the pre-stall one: with
    the two coefficient mappings exchanged the call has the same outcome,
    the same totals or the same exception. *)
Theorem lift_drag_total_swap_stall state settings geometry :
  (lift_drag_total (swap_stall state) settings geometry).1
  = (lift_drag_total state settings geometry).1.
Proof.
  unfold lift_drag_total. destruct (wings geometry) as [|w ws]; [done|].
  rewrite !wing_loop_cons. cbn [fst]. f_equal. unfold wing_exception.
  cbn [swap_stall set_post_stall_coefficients set_pre_stall_coefficients
       with_aerodynamics conditions aerodynamics pre_stall_coefficients
       post_stall_coefficients angle_of_attack].
  destruct (pre_stall_coefficients _ !! tag w) as [pre|],
           (post_stall_coefficients _ !! tag w) as [post|]; try done.
  apply lift_exception_comm.
Qed.

(** ** The exception of the first wing *)

(** X12. When a mapping lacks the tag of the first wing, the call raises
    [KeyError] on that tag, whatever wings follow, and the state is
    unchanged. *)
Theorem lift_drag_total_missing_tag state settings geometry w ws :
  wings geometry = w :: ws →
  pre_stall_coefficients (aerodynamics (conditions state)) !! tag w = None ∨
  post_stall_coefficients (aerodynamics (conditions state)) !! tag w = None →
  lift_drag_total state settings geometry = (Raise (KeyError (tag w)), state).
Proof.
  intros Hws Hmiss. rewrite (lift_drag_total_cons _ _ _ _ _ Hws).
  unfold wing_exception.
  destruct (pre_stall_coefficients _ !! tag w) as [pre|]; [|done].
  destruct Hmiss as [?|Hpost]; [done|]. by rewrite Hpost.
Qed.


(** ** Inputs that never reach the outcome *)


(** X15. Areas, the reference area and the [vertical] flags never reach
    the outcome: two geometries whose wings carry the same tags in the
    same order give the same totals or the same exception. *)
Theorem lift_drag_total_tags_only state settings geometry geometry' :
  tag <$> wings geometry' = tag <$> wings geometry →
  (lift_drag_total state settings geometry').1
  = (lift_drag_total state settings geometry).1.
Proof.
  intros Htags. unfold lift_drag_total.
  destruct (wings geometry) as [|w ws], (wings geometry') as [|w' ws'];
    try done.
  rewrite !wing_loop_cons. cbn [fst]. f_equal. unfold wing_exception.
  injection Htags as -> _. done.
Qed.

(** ** The further properties at the concrete data *)

Lemma lift_drag_total_reads_witness :
  (lift_drag_total (lift_drag_total state_AB settings_AB geometry_none).2
     settings_AB geometry_AB).1
  = (lift_drag_total state_AB settings_AB geometry_AB).1.
Proof.
  apply (lift_drag_total_reads state_AB
           (lift_drag_total state_AB settings_AB geometry_none).2
           settings_AB geometry_AB); by_evaluation.
Defined.

Lemma lift_drag_total_idempotent_witness :
  lift_drag_total (lift_drag_total state_AB settings_AB geometry_none).2
    settings_AB geometry_none
  = (Ok (Scalar 0, Scalar (dec 1 1000)),
     (lift_drag_total state_AB settings_AB geometry_none).2).
Proof.
  apply (lift_drag_total_idempotent state_AB settings_AB geometry_none).
  by_evaluation.
Defined.

Lemma lift_drag_total_then_drag_total_witness :
  drag_total (lift_drag_total state_AB settings_AB geometry_none).2
    settings_L geometry_L
  = (Ok (Scalar (dec 1 1000)),
     (lift_drag_total state_AB settings_AB geometry_none).2).
Proof.
  apply (lift_drag_total_then_drag_total state_AB settings_AB geometry_none
           (Scalar 0)).
  by_evaluation.
Defined.

Lemma setup_data_then_lift_drag_total_witness :
  lift_drag_total (setup_data state_AB settings_AB geometry_AB).2
    settings_AB geometry_AB
  = (Raise (KeyError "A"), (setup_data state_AB settings_AB geometry_AB).2).
Proof.
  exact (setup_data_then_lift_drag_total state_AB settings_AB geometry_AB
           settings_AB geometry_AB wing_A [wing_B] eq_refl).
Defined.

Lemma lift_drag_total_exceptions_witness :
  (∃ w ws, [wing_C; wing_A] = w :: ws ∧ KeyError "C" = KeyError (tag w)) ∨
  KeyError "C" = IndexError ∨ KeyError "C" = TypeError.
Proof.
  apply (lift_drag_total_exceptions state_AB settings_AB geometry_CA).
  by_evaluation.
Defined.

Lemma lift_drag_total_missing_tag_witness :
  lift_drag_total state_AB settings_AB geometry_CA
  = (Raise (KeyError "C"), state_AB).
Proof.
  apply (lift_drag_total_missing_tag state_AB settings_AB geometry_CA
           wing_C [wing_A]).
  - reflexivity.
  - by left.
Defined.



Lemma lift_drag_total_tags_only_witness :
  (lift_drag_total state_AB settings_AB geometry_AV).1
  = (lift_drag_total state_AB settings_AB geometry_AB).1.
Proof.
  apply (lift_drag_total_tags_only state_AB settings_AB geometry_AB geometry_AV).
  reflexivity.
Defined.
